(** * InstructionClassification: classification of LLVM instructions

    A shallow embedding of [InstructionClassification.cpp], the function pass
    that sorts the instructions of a function into ten vectors and prints the
    size of each, together with the properties of the pass. *)

From Stdlib Require Import NArith Ascii String DecimalString DecimalN.
From stdpp Require Import base list strings.

(** ** The host IR

    The pass reads three things of LLVM: the opcode of an instruction, the
    identity of an instruction (its address, which is what the vectors of the
    pass store) and the instructions of a function in iteration order. *)

Module Instruction.

(** The opcode enumeration is declared by LLVM ([llvm/IR/Instruction.def]),
    not by this repository.  The first 55 constructors are the case labels
    of the switch in [runOnFunction], in the order of the source; the next
    eleven are the opcodes of the same enumeration that the switch does not
    name; [Unlisted n] stands for any other value that [getOpcode] may
    return (an opcode of a later release). *)
Inductive Opcode : Set :=
| Ret | Br | Switch | IndirectBr | Invoke | CallBr | Resume
| CatchSwitch | CatchRet | CleanupRet | Unreachable
| FNeg
| Add | Sub | Mul | UDiv | SDiv | URem | SRem
| FAdd | FSub | FMul | FRem | FDiv
| Shl | LShr | AShr | And | Or | Xor
| ExtractElement | InsertElement | ShuffleVector
| ExtractValue | InsertValue
| Alloca | Load | Store | Fence | AtomicCmpXchg | AtomicRMW | GetElementPtr
| Trunc | ZExt | SExt | FPTrunc | FPExt | FPToUI | FPToSI | UIToFP | SIToFP
| PtrToInt | IntToPtr | BitCast | AddrSpaceCast
| CleanupPad | CatchPad | ICmp | FCmp | PHI | Call | Select
| UserOp1 | UserOp2 | VAArg | LandingPad
| Unlisted (n : N).

(** An instruction object.  The vectors of the pass hold
    [const Instruction *]; a pointer is modelled by the object it points
    to, and [address] keeps two instructions with the same opcode apart. *)
Record t : Set := mk { address : N; getOpcode : Opcode }.

End Instruction.

Abbreviation Instruction := Instruction.t.

#[global] Instance Opcode_eq_dec : EqDecision Instruction.Opcode.
Proof. solve_decision. Defined.

#[global] Instance Instruction_eq_dec : EqDecision Instruction.
Proof. solve_decision. Defined.

(** A basic block is its list of instructions, a function its list of basic
    blocks. *)
Definition BasicBlock : Set := list Instruction.

Record Function : Set := mkFunction {
  getName : string;
  getBasicBlockList : list BasicBlock
}.

(** [inst_begin(F)] .. [inst_end(F)]: every instruction of every basic block,
    block after block. *)
Definition instructions (Fn : Function) : list Instruction :=
  concat (getBasicBlockList Fn).

(** ** The pass object *)

(** [SmallVector::push_back] and [SmallVector::size].  A vector is the list
    of its elements; [size_t] holds the size of every vector that fits in
    memory, so [size] is the length without wrap-around. *)
Definition push_back {A : Type} (v : list A) (x : A) : list A := v ++ [x].

Definition size {A : Type} (v : list A) : N := N.of_nat (length v).

(** The private members of [class InstructionClassification], in the order
    of their declaration.  [F] is a pointer that the constructor leaves
    unset. *)
Record InstructionClassification : Set := mkInstructionClassification {
  F : option Function;
  TermOps : list Instruction;
  UnaryOps : list Instruction;
  BinaryOps : list Instruction;
  FloatBinaryOps : list Instruction;
  BitwiseBinaryOps : list Instruction;
  VectorOps : list Instruction;
  AggregateOps : list Instruction;
  MemAccessAndAddrOps : list Instruction;
  ConvOps : list Instruction;
  OtherOps : list Instruction
}.

(** [InstructionClassification() : FunctionPass(ID) {}]: every vector is
    default-constructed, hence empty. *)
Definition new_InstructionClassification : InstructionClassification :=
  mkInstructionClassification None [] [] [] [] [] [] [] [] [] [].

(** One iteration of the loop of [runOnFunction]: the switch on the opcode
    of [I], each arm pushing [&*I] on one vector of [this]. *)
Definition visit (this : InstructionClassification) (I : Instruction)
  : InstructionClassification :=
  let '(mkInstructionClassification f te un bi fl bw ve ag me co ot) := this in
  match Instruction.getOpcode I with
  | Instruction.Ret
  | Instruction.Br
  | Instruction.Switch
  | Instruction.IndirectBr
  | Instruction.Invoke
  | Instruction.CallBr
  | Instruction.Resume
  | Instruction.CatchSwitch
  | Instruction.CatchRet
  | Instruction.CleanupRet
  | Instruction.Unreachable =>
      mkInstructionClassification f (push_back te I) un bi fl bw ve ag me co ot
  | Instruction.FNeg =>
      mkInstructionClassification f te (push_back un I) bi fl bw ve ag me co ot
  | Instruction.Add
  | Instruction.Sub
  | Instruction.Mul
  | Instruction.UDiv
  | Instruction.SDiv
  | Instruction.URem
  | Instruction.SRem =>
      mkInstructionClassification f te un (push_back bi I) fl bw ve ag me co ot
  | Instruction.FAdd
  | Instruction.FSub
  | Instruction.FMul
  | Instruction.FRem
  | Instruction.FDiv =>
      mkInstructionClassification f te un bi (push_back fl I) bw ve ag me co ot
  | Instruction.Shl
  | Instruction.LShr
  | Instruction.AShr
  | Instruction.And
  | Instruction.Or
  | Instruction.Xor =>
      mkInstructionClassification f te un bi fl (push_back bw I) ve ag me co ot
  | Instruction.ExtractElement
  | Instruction.InsertElement
  | Instruction.ShuffleVector =>
      mkInstructionClassification f te un bi fl bw (push_back ve I) ag me co ot
  | Instruction.ExtractValue
  | Instruction.InsertValue =>
      mkInstructionClassification f te un bi fl bw ve (push_back ag I) me co ot
  | Instruction.Alloca
  | Instruction.Load
  | Instruction.Store
  | Instruction.Fence
  | Instruction.AtomicCmpXchg
  | Instruction.AtomicRMW
  | Instruction.GetElementPtr =>
      mkInstructionClassification f te un bi fl bw ve ag (push_back me I) co ot
  | Instruction.Trunc
  | Instruction.ZExt
  | Instruction.SExt
  | Instruction.FPTrunc
  | Instruction.FPExt
  | Instruction.FPToUI
  | Instruction.FPToSI
  | Instruction.UIToFP
  | Instruction.SIToFP
  | Instruction.PtrToInt
  | Instruction.IntToPtr
  | Instruction.BitCast
  | Instruction.AddrSpaceCast =>
      mkInstructionClassification f te un bi fl bw ve ag me (push_back co I) ot
  | _ =>
      mkInstructionClassification f te un bi fl bw ve ag me co (push_back ot I)
  end.

(** [bool runOnFunction(Function &F)].  The function is received by
    non-const reference and the pass object through [this], so the model
    takes both and returns both next to the boolean result: [this->F] is
    assigned, the loop runs [visit] over the instructions in iteration
    order, and no statement writes through [F]. *)
Definition runOnFunction (Fn : Function) (this : InstructionClassification)
  : bool * Function * InstructionClassification :=
  let '(mkInstructionClassification _ te un bi fl bw ve ag me co ot) := this in
  let this := mkInstructionClassification (Some Fn) te un bi fl bw ve ag me co ot in
  let this := fold_left visit (instructions Fn) this in
  (false, Fn, this).

(** ** The report *)

(** [raw_ostream] is modelled by the text written to it so far; [<<] is
    overloaded for string literals, for [size_t] (printed in decimal) and for
    single characters. *)
Definition raw_ostream : Set := string.

Class Streamable (A : Type) := stream_out : raw_ostream -> A -> raw_ostream.

#[global] Instance stream_string : Streamable string :=
  fun OS s => OS +:+ s.

#[global] Instance stream_size_t : Streamable N :=
  fun OS n => OS +:+ NilEmpty.string_of_uint (N.to_uint n).

#[global] Instance stream_char : Streamable ascii :=
  fun OS c => OS +:+ String c EmptyString.

Notation "OS << x" := (stream_out OS x) (at level 50, left associativity).

(** The character ['\n']. *)
Definition newline : ascii := ascii_of_nat 10.

(** [print], a const member function: it writes to the stream [OS] and
    reads [this].  Its second parameter, a module pointer, is unnamed and
    unused in the source and is left out. *)
Definition print (OS : raw_ostream) (this : InstructionClassification)
  : raw_ostream :=
  let NumTermOps := size (TermOps this) in
  let NumUnaryOps := size (UnaryOps this) in
  let NumBinaryOps := size (BinaryOps this) in
  let NumFloatBinaryOps := size (FloatBinaryOps this) in
  let NumBitwiseBinaryOps := size (BitwiseBinaryOps this) in
  let NumVectorOps := size (VectorOps this) in
  let NumAggregateOps := size (AggregateOps this) in
  let NumMemAccessAndAddrOps := size (MemAccessAndAddrOps this) in
  let NumConvOps := size (ConvOps this) in
  let NumOtherOps := size (OtherOps this) in
  let OS := OS << "  # terminator operations: " << NumTermOps << newline in
  let OS := OS << "  # unary operations: " << NumUnaryOps << newline in
  let OS := OS << "  # binary operations: " << NumBinaryOps << newline in
  let OS := OS << "  # float binary operations: " << NumFloatBinaryOps
               << newline in
  let OS := OS << "  # bitwise binary operations: " << NumBitwiseBinaryOps
               << newline in
  let OS := OS << "  # vector operations: " << NumVectorOps << newline in
  let OS := OS << "  # aggregate operations: " << NumAggregateOps
               << newline in
  let OS := OS << "  # memory access and addressing operations: "
               << NumMemAccessAndAddrOps << newline in
  let OS := OS << "  # conversion operations: " << NumConvOps << newline in
  let OS := OS << "  # other operations: " << NumOtherOps << newline in
  OS.

(** ** Vocabulary of the properties *)

(** The ten vectors of the pass, named in the order of their declaration
    (which is also the order of the arms of the switch and of the lines of
    the report). *)
Inductive Category : Set :=
| Terminator | UnaryArithmetic | BinaryArithmeticInteger
| BinaryArithmeticFloat | BitwiseBinary | Vector | Aggregate
| MemoryAndAddressing | Conversion | Other.

#[global] Instance Category_eq_dec : EqDecision Category.
Proof. solve_decision. Defined.

Definition categories : list Category :=
  [Terminator; UnaryArithmetic; BinaryArithmeticInteger;
   BinaryArithmeticFloat; BitwiseBinary; Vector; Aggregate;
   MemoryAndAddressing; Conversion; Other].

(** The vector of the pass that holds a category. *)
Definition ops (c : Category) (this : InstructionClassification)
  : list Instruction :=
  match c with
  | Terminator => TermOps this
  | UnaryArithmetic => UnaryOps this
  | BinaryArithmeticInteger => BinaryOps this
  | BinaryArithmeticFloat => FloatBinaryOps this
  | BitwiseBinary => BitwiseBinaryOps this
  | Vector => VectorOps this
  | Aggregate => AggregateOps this
  | MemoryAndAddressing => MemAccessAndAddrOps this
  | Conversion => ConvOps this
  | Other => OtherOps this
  end.

Definition count (c : Category) (this : InstructionClassification) : nat :=
  length (ops c this).

(** The ten counts in category order, and their sum. *)
Definition counts (this : InstructionClassification) : list nat :=
  map (fun c => count c this) categories.

Definition total (this : InstructionClassification) : nat :=
  foldr Nat.add 0 (counts this).

(** The case labels of the switch of [runOnFunction], in source order: the
    lookup table of the classification. *)
Definition case_labels : list Instruction.Opcode :=
  [Instruction.Ret; Instruction.Br; Instruction.Switch;
   Instruction.IndirectBr; Instruction.Invoke; Instruction.CallBr;
   Instruction.Resume; Instruction.CatchSwitch; Instruction.CatchRet;
   Instruction.CleanupRet; Instruction.Unreachable;
   Instruction.FNeg;
   Instruction.Add; Instruction.Sub; Instruction.Mul; Instruction.UDiv;
   Instruction.SDiv; Instruction.URem; Instruction.SRem;
   Instruction.FAdd; Instruction.FSub; Instruction.FMul; Instruction.FRem;
   Instruction.FDiv;
   Instruction.Shl; Instruction.LShr; Instruction.AShr; Instruction.And;
   Instruction.Or; Instruction.Xor;
   Instruction.ExtractElement; Instruction.InsertElement;
   Instruction.ShuffleVector;
   Instruction.ExtractValue; Instruction.InsertValue;
   Instruction.Alloca; Instruction.Load; Instruction.Store;
   Instruction.Fence; Instruction.AtomicCmpXchg; Instruction.AtomicRMW;
   Instruction.GetElementPtr;
   Instruction.Trunc; Instruction.ZExt; Instruction.SExt;
   Instruction.FPTrunc; Instruction.FPExt; Instruction.FPToUI;
   Instruction.FPToSI; Instruction.UIToFP; Instruction.SIToFP;
   Instruction.PtrToInt; Instruction.IntToPtr; Instruction.BitCast;
   Instruction.AddrSpaceCast].

(** The arm of the switch that an opcode selects, as the category of the
    vector that the arm pushes on. *)
Definition category_of (op : Instruction.Opcode) : Category :=
  match op with
  | Instruction.Ret | Instruction.Br | Instruction.Switch
  | Instruction.IndirectBr | Instruction.Invoke | Instruction.CallBr
  | Instruction.Resume | Instruction.CatchSwitch | Instruction.CatchRet
  | Instruction.CleanupRet | Instruction.Unreachable => Terminator
  | Instruction.FNeg => UnaryArithmetic
  | Instruction.Add | Instruction.Sub | Instruction.Mul | Instruction.UDiv
  | Instruction.SDiv | Instruction.URem | Instruction.SRem =>
      BinaryArithmeticInteger
  | Instruction.FAdd | Instruction.FSub | Instruction.FMul
  | Instruction.FRem | Instruction.FDiv => BinaryArithmeticFloat
  | Instruction.Shl | Instruction.LShr | Instruction.AShr
  | Instruction.And | Instruction.Or | Instruction.Xor => BitwiseBinary
  | Instruction.ExtractElement | Instruction.InsertElement
  | Instruction.ShuffleVector => Vector
  | Instruction.ExtractValue | Instruction.InsertValue => Aggregate
  | Instruction.Alloca | Instruction.Load | Instruction.Store
  | Instruction.Fence | Instruction.AtomicCmpXchg | Instruction.AtomicRMW
  | Instruction.GetElementPtr => MemoryAndAddressing
  | Instruction.Trunc | Instruction.ZExt | Instruction.SExt
  | Instruction.FPTrunc | Instruction.FPExt | Instruction.FPToUI
  | Instruction.FPToSI | Instruction.UIToFP | Instruction.SIToFP
  | Instruction.PtrToInt | Instruction.IntToPtr | Instruction.BitCast
  | Instruction.AddrSpaceCast => Conversion
  | _ => Other
  end.

(** The instructions of a list that select the arm of category [c]. *)
Definition selected (c : Category) (l : list Instruction) : list Instruction :=
  filter (fun I => category_of (Instruction.getOpcode I) = c) l.

(** The pass object after [runOnFunction]. *)
Definition classified (Fn : Function) (this : InstructionClassification)
  : InstructionClassification :=
  snd (runOnFunction Fn this).

(** The text before the colon on the line of a category: the string literals
    of [print] without their last two characters. *)
Definition label (c : Category) : string :=
  match c with
  | Terminator => "  # terminator operations"
  | UnaryArithmetic => "  # unary operations"
  | BinaryArithmeticInteger => "  # binary operations"
  | BinaryArithmeticFloat => "  # float binary operations"
  | BitwiseBinary => "  # bitwise binary operations"
  | Vector => "  # vector operations"
  | Aggregate => "  # aggregate operations"
  | MemoryAndAddressing => "  # memory access and addressing operations"
  | Conversion => "  # conversion operations"
  | Other => "  # other operations"
  end.

(** The decimal numeral of a count. *)
Definition decimal (n : nat) : string :=
  NilEmpty.string_of_uint (N.to_uint (N.of_nat n)).

(** The line of a category, without its line end. *)
Definition report_line (this : InstructionClassification) (c : Category)
  : string :=
  label c +:+ ": " +:+ decimal (count c this).

(** The lines of a text, each ended by a newline character (a last line
    that is not ended counts as well). *)
Fixpoint lines (s : string) : list string :=
  match s with
  | EmptyString => []
  | String a s' =>
      if Ascii.eqb a newline then EmptyString :: lines s'
      else match lines s' with
           | [] => [String a EmptyString]
           | l :: ls => String a l :: ls
           end
  end.

(** The text that [print] appends, line by line. *)
Definition report (this : InstructionClassification) : string :=
  foldr (fun c acc => report_line this c +:+ String newline acc)
    EmptyString categories.

(** No character of the text is a newline. *)
Fixpoint no_newline (s : string) : bool :=
  match s with
  | EmptyString => true
  | String a s' => negb (Ascii.eqb a newline) && no_newline s'
  end.

(** Two functions used as concrete inputs below: [ret], and [add] followed
    by [ret] in a second block. *)
Definition fn_ret : Function :=
  mkFunction "f" [[Instruction.mk 1 Instruction.Ret]].

Definition fn_add_ret : Function :=
  mkFunction "g"
    [[Instruction.mk 2 Instruction.Add]; [Instruction.mk 3 Instruction.Ret]].

(** ** Vocabulary of the further properties *)

(** The case labels of the arm of the switch that pushes on the vector of a
    category, in source order.  The default arm has no label. *)
Definition arm_labels (c : Category) : list Instruction.Opcode :=
  match c with
  | Terminator =>
      [Instruction.Ret; Instruction.Br; Instruction.Switch;
       Instruction.IndirectBr; Instruction.Invoke; Instruction.CallBr;
       Instruction.Resume; Instruction.CatchSwitch; Instruction.CatchRet;
       Instruction.CleanupRet; Instruction.Unreachable]
  | UnaryArithmetic => [Instruction.FNeg]
  | BinaryArithmeticInteger =>
      [Instruction.Add; Instruction.Sub; Instruction.Mul; Instruction.UDiv;
       Instruction.SDiv; Instruction.URem; Instruction.SRem]
  | BinaryArithmeticFloat =>
      [Instruction.FAdd; Instruction.FSub; Instruction.FMul;
       Instruction.FRem; Instruction.FDiv]
  | BitwiseBinary =>
      [Instruction.Shl; Instruction.LShr; Instruction.AShr; Instruction.And;
       Instruction.Or; Instruction.Xor]
  | Vector =>
      [Instruction.ExtractElement; Instruction.InsertElement;
       Instruction.ShuffleVector]
  | Aggregate => [Instruction.ExtractValue; Instruction.InsertValue]
  | MemoryAndAddressing =>
      [Instruction.Alloca; Instruction.Load; Instruction.Store;
       Instruction.Fence; Instruction.AtomicCmpXchg; Instruction.AtomicRMW;
       Instruction.GetElementPtr]
  | Conversion =>
      [Instruction.Trunc; Instruction.ZExt; Instruction.SExt;
       Instruction.FPTrunc; Instruction.FPExt; Instruction.FPToUI;
       Instruction.FPToSI; Instruction.UIToFP; Instruction.SIToFP;
       Instruction.PtrToInt; Instruction.IntToPtr; Instruction.BitCast;
       Instruction.AddrSpaceCast]
  | Other => []
  end.

(** [runOnFunction] called on one pass object for each function of a list
    in turn, the way a pass manager runs a function pass over the functions
    of a module. *)
Definition classified_all (Fs : list Function)
    (this : InstructionClassification) : InstructionClassification :=
  foldl (fun this Fn => classified Fn this) this Fs.

(** The number of instructions of a list of functions. *)
Definition instruction_count (Fs : list Function) : nat :=
  sum_list (map (fun Fn => length (instructions Fn)) Fs).

(** An instruction that selects the first arm of the switch. *)
Definition is_terminator (I : Instruction) : bool :=
  bool_decide (category_of (Instruction.getOpcode I) = Terminator).

(** A basic block whose last instruction is its only terminator, as in
    every function that LLVM accepts as well formed. *)
Fixpoint well_terminated (B : BasicBlock) : bool :=
  match B with
  | [] => false
  | Inst :: B' =>
      match B' with
      | [] => is_terminator Inst
      | _ :: _ => negb (is_terminator Inst) && well_terminated B'
      end
  end.

(** A function of two well-terminated blocks, used as a concrete input. *)
Definition fn_add_ret_blocks : Function :=
  mkFunction "w"
    [[Instruction.mk 30 Instruction.Add; Instruction.mk 31 Instruction.Br];
     [Instruction.mk 32 Instruction.FNeg; Instruction.mk 33 Instruction.Ret]].

(** ** The run as a program on memory *)

(** What a call of [runOnFunction] can reach: the function object behind
    the reference [F] and the pass object behind [this]. *)
Record Memory : Set := mkMemory {
  the_function : Function;
  the_pass : InstructionClassification
}.

(** A statement takes the memory, yields a value and leaves a memory. *)
Definition Stmt (A : Type) : Type := Memory -> A * Memory.

#[global] Instance Stmt_ret : MRet Stmt := fun A a m => (a, m).

#[global] Instance Stmt_bind : MBind Stmt :=
  fun A B k s m => let '(a, m') := s m in k a m'.

(** [this->F = &F]. *)
Definition assign_F : Stmt unit :=
  fun m =>
    let '(mkInstructionClassification _ te un bi fl bw ve ag me co ot) :=
      the_pass m in
    (tt, mkMemory (the_function m)
           (mkInstructionClassification (Some (the_function m))
              te un bi fl bw ve ag me co ot)).

(** [inst_begin(F)] .. [inst_end(F)]: the range that the loop walks, read
    from the function object. *)
Definition inst_range : Stmt (list Instruction) :=
  fun m => (instructions (the_function m), m).

(** [push_back(&*I)] on the vector of a category of a pass object. *)
Definition push_on (c : Category) (I : Instruction)
    (this : InstructionClassification) : InstructionClassification :=
  let '(mkInstructionClassification f te un bi fl bw ve ag me co ot) := this in
  match c with
  | Terminator =>
      mkInstructionClassification f (push_back te I) un bi fl bw ve ag me co ot
  | UnaryArithmetic =>
      mkInstructionClassification f te (push_back un I) bi fl bw ve ag me co ot
  | BinaryArithmeticInteger =>
      mkInstructionClassification f te un (push_back bi I) fl bw ve ag me co ot
  | BinaryArithmeticFloat =>
      mkInstructionClassification f te un bi (push_back fl I) bw ve ag me co ot
  | BitwiseBinary =>
      mkInstructionClassification f te un bi fl (push_back bw I) ve ag me co ot
  | Vector =>
      mkInstructionClassification f te un bi fl bw (push_back ve I) ag me co ot
  | Aggregate =>
      mkInstructionClassification f te un bi fl bw ve (push_back ag I) me co ot
  | MemoryAndAddressing =>
      mkInstructionClassification f te un bi fl bw ve ag (push_back me I) co ot
  | Conversion =>
      mkInstructionClassification f te un bi fl bw ve ag me (push_back co I) ot
  | Other =>
      mkInstructionClassification f te un bi fl bw ve ag me co (push_back ot I)
  end.

(** The statement [this->V.push_back(&*I)], [V] the vector of a category. *)
Definition push_back_on (c : Category) (I : Instruction) : Stmt unit :=
  fun m => (tt, mkMemory (the_function m) (push_on c I (the_pass m))).

(** The body of the loop of [runOnFunction] as a statement: the switch, each
    arm one [push_back], the [break]s left out. *)
Definition visit_stmt (I : Instruction) : Stmt unit :=
  match Instruction.getOpcode I with
  | Instruction.Ret
  | Instruction.Br
  | Instruction.Switch
  | Instruction.IndirectBr
  | Instruction.Invoke
  | Instruction.CallBr
  | Instruction.Resume
  | Instruction.CatchSwitch
  | Instruction.CatchRet
  | Instruction.CleanupRet
  | Instruction.Unreachable => push_back_on Terminator I
  | Instruction.FNeg => push_back_on UnaryArithmetic I
  | Instruction.Add
  | Instruction.Sub
  | Instruction.Mul
  | Instruction.UDiv
  | Instruction.SDiv
  | Instruction.URem
  | Instruction.SRem => push_back_on BinaryArithmeticInteger I
  | Instruction.FAdd
  | Instruction.FSub
  | Instruction.FMul
  | Instruction.FRem
  | Instruction.FDiv => push_back_on BinaryArithmeticFloat I
  | Instruction.Shl
  | Instruction.LShr
  | Instruction.AShr
  | Instruction.And
  | Instruction.Or
  | Instruction.Xor => push_back_on BitwiseBinary I
  | Instruction.ExtractElement
  | Instruction.InsertElement
  | Instruction.ShuffleVector => push_back_on Vector I
  | Instruction.ExtractValue
  | Instruction.InsertValue => push_back_on Aggregate I
  | Instruction.Alloca
  | Instruction.Load
  | Instruction.Store
  | Instruction.Fence
  | Instruction.AtomicCmpXchg
  | Instruction.AtomicRMW
  | Instruction.GetElementPtr => push_back_on MemoryAndAddressing I
  | Instruction.Trunc
  | Instruction.ZExt
  | Instruction.SExt
  | Instruction.FPTrunc
  | Instruction.FPExt
  | Instruction.FPToUI
  | Instruction.FPToSI
  | Instruction.UIToFP
  | Instruction.SIToFP
  | Instruction.PtrToInt
  | Instruction.IntToPtr
  | Instruction.BitCast
  | Instruction.AddrSpaceCast => push_back_on Conversion I
  | _ => push_back_on Other I
  end.

(** The loop [for (auto I = ...; I != ...; ++I) body]. *)
Fixpoint for_each {A : Type} (body : A -> Stmt unit) (l : list A)
  : Stmt unit :=
  match l with
  | [] => mret tt
  | x :: l' => body x;; for_each body l'
  end.

(** [runOnFunction] as a statement on the memory: the assignment, the loop
    over the instructions of the function, [return false]. *)
Definition runOnFunction_stmt : Stmt bool :=
  assign_F;;
  l ← inst_range;
  for_each visit_stmt l;;
  mret false.

(** A statement that leaves the function object as it finds it. *)
Definition reads_function_only {A : Type} (s : Stmt A) : Prop :=
  forall m, the_function (snd (s m)) = the_function m.

(** [AnalysisUsage] is a class of LLVM, not of this repository.  The model
    keeps of it the set of required analyses and the flag that
    [setPreservesAll] raises, by which a pass declares that it changes
    nothing of what it runs on. *)
Record AnalysisUsage : Set := mkAnalysisUsage {
  Required : list string;
  PreservesAll : bool
}.

Definition setPreservesAll (AU : AnalysisUsage) : AnalysisUsage :=
  mkAnalysisUsage (Required AU) true.

(** [getAnalysisUsage(AnalysisUsage &AU) const]: [AU.setPreservesAll()]. *)
Definition getAnalysisUsage (AU : AnalysisUsage) : AnalysisUsage :=
  setPreservesAll AU.

(** ** The loop *)

Section Loop.

Implicit Types (this : InstructionClassification) (I : Instruction).
Implicit Types (c : Category) (l : list Instruction).

Lemma visit_ops c this I :
  ops c (visit this I) =
  if decide (category_of (Instruction.getOpcode I) = c)
  then push_back (ops c this) I else ops c this.
Proof.
  destruct this, I as [a op]; unfold visit; simpl.
  destruct op, c; reflexivity.
Qed.

Lemma visit_F this I : F (visit this I) = F this.
Proof. destruct this, I as [a op]; destruct op; reflexivity. Qed.

Lemma loop_ops c l this :
  ops c (fold_left visit l this) = ops c this ++ selected c l.
Proof.
  revert this; induction l as [|I l IH]; intros this; simpl.
  - unfold selected; simpl. by rewrite app_nil_r.
  - rewrite IH, visit_ops. unfold selected. rewrite filter_cons.
    destruct (decide _); [|done].
    unfold push_back. by rewrite <- app_assoc.
Qed.

Lemma loop_F l this : F (fold_left visit l this) = F this.
Proof.
  revert this; induction l as [|I l IH]; intros this; simpl; [done|].
  by rewrite IH, visit_F.
Qed.

End Loop.

(** ** The partition made by the switch *)

Section Partition.

Implicit Types (this : InstructionClassification) (I : Instruction).
Implicit Types (c : Category) (l : list Instruction).

Lemma classified_ops c Fn this :
  ops c (classified Fn this) = ops c this ++ selected c (instructions Fn).
Proof.
  unfold classified, runOnFunction. destruct this; simpl.
  rewrite loop_ops. by destruct c.
Qed.

Lemma classified_new_ops c Fn :
  ops c (classified Fn new_InstructionClassification)
  = selected c (instructions Fn).
Proof. rewrite classified_ops. by destruct c. Qed.

Lemma classified_F Fn this : F (classified Fn this) = Some Fn.
Proof.
  unfold classified, runOnFunction. destruct this; simpl.
  by rewrite loop_F.
Qed.

Lemma elem_of_selected c l I :
  I ∈ selected c l <-> I ∈ l /\ category_of (Instruction.getOpcode I) = c.
Proof. unfold selected. rewrite list_elem_of_filter. tauto. Qed.

(** Every instruction selects one arm, so the ten selections of a list
    have its length together. *)
Lemma selected_total l :
  foldr Nat.add 0 (map (fun c => length (selected c l)) categories)
  = length l.
Proof.
  induction l as [|I l IH]; [reflexivity|].
  revert IH. unfold selected, categories. simpl.
  rewrite !filter_cons.
  destruct (category_of (Instruction.getOpcode I)); simpl; lia.
Qed.

(** ... and are a rearrangement of it. *)
Lemma selected_Permutation l :
  concat (map (fun c => selected c l) categories) ≡ₚ l.
Proof.
  induction l as [|I l IH]; [reflexivity|].
  revert IH. unfold selected, categories. simpl.
  rewrite !filter_cons, !app_nil_r.
  destruct (category_of (Instruction.getOpcode I)); simpl; intros IH;
    rewrite <- ?Permutation_middle; by rewrite IH.
Qed.

Lemma total_classified Fn this :
  total (classified Fn this) = total this + length (instructions Fn).
Proof.
  rewrite <- (selected_total (instructions Fn)).
  unfold total, counts, categories. cbn [map foldr]. unfold count.
  rewrite !classified_ops, !length_app. lia.
Qed.

(** The default arm is the arm of exactly the opcodes that are no case
    label. *)
Lemma category_of_Other op :
  category_of op = Other <-> op ∉ case_labels.
Proof.
  unfold case_labels.
  destruct op; simpl; split; intros H; try done.
  all: first
    [ by destruct H; repeat constructor
    | repeat (apply not_elem_of_cons; split; [discriminate|]);
      apply not_elem_of_nil ].
Qed.

End Partition.

(** ** Properties of the classification *)

(** C2. An instruction whose opcode is none of the case labels of the switch
    takes the default arm: the loop body pushes it on [OtherOps] and leaves
    the other nine vectors as they are, and after [runOnFunction], which
    is a total function of the function and the pass, such an instruction of
    the function is in [OtherOps], whatever the pass held before, and in no
    other vector of a newly constructed pass; the ten sizes together grow by
    the number of instructions of the function, so that none is dropped. *)
Theorem C2_default_arm (Fn : Function) (this : InstructionClassification)
    (I : Instruction) :
  I ∈ instructions Fn ->
  Instruction.getOpcode I ∉ case_labels ->
  OtherOps (visit this I) = push_back (OtherOps this) I
  /\ (forall c, c <> Other -> ops c (visit this I) = ops c this)
  /\ I ∈ OtherOps (classified Fn this)
  /\ (forall c, I ∈ ops c (classified Fn new_InstructionClassification) ->
                c = Other)
  /\ total (classified Fn this) = total this + length (instructions Fn).
Proof.
  intros HI Hop. apply category_of_Other in Hop.
  split; [|split; [|split; [|split]]]; [| | | |apply total_classified].
  - change (OtherOps (visit this I)) with (ops Other (visit this I)).
    rewrite visit_ops, Hop. by rewrite decide_True.
  - intros c Hc. rewrite visit_ops, Hop. by rewrite decide_False.
  - change (I ∈ ops Other (classified Fn this)).
    rewrite classified_ops, elem_of_app. right. by apply elem_of_selected.
  - intros c Hc. rewrite classified_new_ops in Hc.
    apply elem_of_selected in Hc as [_ <-]. done.
Qed.

Lemma C2_default_arm_witness :
  let I := Instruction.mk 7 Instruction.PHI in
  let Fn := mkFunction "h" [[I; Instruction.mk 8 Instruction.Ret]] in
  let this := classified fn_ret new_InstructionClassification in
  OtherOps (visit this I) = push_back (OtherOps this) I
  /\ (forall c, c <> Other -> ops c (visit this I) = ops c this)
  /\ I ∈ OtherOps (classified Fn this)
  /\ (forall c, I ∈ ops c (classified Fn new_InstructionClassification) ->
                c = Other)
  /\ total (classified Fn this) = total this + length (instructions Fn).
Proof.
  cbv zeta. apply C2_default_arm.
  - apply list_elem_of_In. simpl. left. reflexivity.
  - apply (bool_decide_unpack _). vm_compute. exact I.
Defined.

(** C3, as the code has it.  [runOnFunction] never clears the vectors: it
    pushes the instructions of the function behind what each vector held
    before the call, so each size grows by the number of instructions of
    the function that select the vector.  Only the pointer [F] is replaced.
    The sizes are those of the function alone when the pass was newly
    constructed. *)
Theorem C3_accumulates (Fn : Function) (this : InstructionClassification)
    (c : Category) :
  ops c (classified Fn this) = ops c this ++ selected c (instructions Fn)
  /\ count c (classified Fn this)
     = count c this + length (selected c (instructions Fn))
  /\ F (classified Fn this) = Some Fn
  /\ ops c (classified Fn new_InstructionClassification)
     = selected c (instructions Fn).
Proof.
  split; [|split; [|split]].
  - apply classified_ops.
  - unfold count. by rewrite classified_ops, length_app.
  - apply classified_F.
  - apply classified_new_ops.
Qed.

(** C3 fails as stated: on a pass that has classified [fn_ret], classifying
    [fn_add_ret] leaves two terminators counted, while [fn_add_ret] has
    one. *)
Lemma C3_counterexample :
  let used := classified fn_ret new_InstructionClassification in
  counts (classified fn_add_ret used) = [2; 0; 1; 0; 0; 0; 0; 0; 0; 0]
  /\ counts (classified fn_add_ret new_InstructionClassification)
     = [1; 0; 1; 0; 0; 0; 0; 0; 0; 0]
  /\ counts (classified fn_add_ret used)
     <> counts (classified fn_add_ret new_InstructionClassification).
Proof. cbv zeta. split; [|split]; [reflexivity|reflexivity|discriminate]. Qed.

(** C8. The sequence add, add, fdiv, load and an opcode that the enumeration
    does not name, classified by a newly constructed pass, gives the counts
    0, 0, 2, 1, 0, 0, 0, 1, 0, 1 in category order, whatever the addresses
    of the five instructions are. *)
Theorem C8_example (a1 a2 a3 a4 a5 n : N) (name : string) :
  counts
    (classified
       (mkFunction name
          [[Instruction.mk a1 Instruction.Add;
            Instruction.mk a2 Instruction.Add;
            Instruction.mk a3 Instruction.FDiv;
            Instruction.mk a4 Instruction.Load;
            Instruction.mk a5 (Instruction.Unlisted n)]])
       new_InstructionClassification)
  = [0; 0; 2; 1; 0; 0; 0; 1; 0; 1].
Proof. reflexivity. Qed.

(** C9. The loop body pushes an instruction on [UnaryOps] exactly when its
    opcode is [FNeg], and after [runOnFunction] on a newly constructed
    pass [UnaryOps] holds exactly the [FNeg] instructions of the function. *)
Theorem C9_unary_iff_fneg (Fn : Function) (this : InstructionClassification)
    (I : Instruction) :
  UnaryOps (visit this I)
  = (if decide (Instruction.getOpcode I = Instruction.FNeg)
     then push_back (UnaryOps this) I else UnaryOps this)
  /\ (I ∈ UnaryOps (classified Fn new_InstructionClassification)
      <-> I ∈ instructions Fn /\ Instruction.getOpcode I = Instruction.FNeg).
Proof.
  assert (Hcat : forall op,
    category_of op = UnaryArithmetic <-> op = Instruction.FNeg).
  { intros op. destruct op; simpl; split; intros H; done. }
  split.
  - change (UnaryOps (visit this I)) with (ops UnaryArithmetic (visit this I)).
    rewrite visit_ops. simpl.
    destruct (decide (category_of _ = _)) as [H|H];
      destruct (decide (_ = Instruction.FNeg)) as [H'|H']; try done;
      rewrite Hcat in H; done.
  - change (UnaryOps ?x) with (ops UnaryArithmetic x).
    by rewrite classified_new_ops, elem_of_selected, Hcat.
Qed.

(** ** The text of the report *)

Section Report.

Implicit Types (this : InstructionClassification) (c : Category).
Implicit Types (s : string) (OS : raw_ostream).

Lemma append_nil s : EmptyString +:+ s = s.
Proof. reflexivity. Qed.

Lemma append_cons a s1 s2 : String a s1 +:+ s2 = String a (s1 +:+ s2).
Proof. reflexivity. Qed.

Lemma append_assoc s1 s2 s3 : (s1 +:+ s2) +:+ s3 = s1 +:+ (s2 +:+ s3).
Proof.
  induction s1 as [|a s1 IH]; [reflexivity|].
  rewrite !append_cons. by f_equal.
Qed.

Lemma no_newline_append s1 s2 :
  no_newline (s1 +:+ s2) = no_newline s1 && no_newline s2.
Proof.
  induction s1 as [|a s1 IH]; [reflexivity|].
  rewrite append_cons. simpl. rewrite <- andb_assoc. by f_equal.
Qed.

Lemma no_newline_label c : no_newline (label c) = true.
Proof. destruct c; reflexivity. Qed.

Lemma no_newline_uint d : no_newline (NilEmpty.string_of_uint d) = true.
Proof. induction d; simpl; done. Qed.

Lemma no_newline_report_line this c : no_newline (report_line this c) = true.
Proof.
  unfold report_line, decimal.
  by rewrite !no_newline_append, no_newline_label, no_newline_uint.
Qed.

Lemma lines_line s rest :
  no_newline s = true -> lines (s +:+ String newline rest) = s :: lines rest.
Proof.
  induction s as [|a s IH]; intros H; [reflexivity|].
  simpl in H. apply andb_true_iff in H as [Ha Hs].
  apply negb_true_iff in Ha.
  rewrite append_cons. simpl. by rewrite Ha, IH.
Qed.

Lemma lines_report this : lines (report this) = map (report_line this) categories.
Proof.
  unfold report, categories. cbn [foldr map].
  by rewrite !lines_line by apply no_newline_report_line.
Qed.

Lemma print_report OS this : print OS this = OS +:+ report this.
Proof.
  unfold print, report, categories, report_line, decimal, count, size.
  unfold stream_out, stream_string, stream_size_t, stream_char.
  cbn [foldr ops label].
  rewrite !append_assoc. reflexivity.
Qed.

End Report.

(** C4. [print] appends to the stream a text of exactly ten lines, each
    ended by a newline, one for each vector in the order terminator, unary,
    binary, float binary, bitwise binary, vector, aggregate, memory access
    and addressing, conversion, other; each line is the label of the vector,
    a colon, a space and the size of the vector in decimal, also when the
    size is 0. *)
Theorem C4_report (OS : raw_ostream) (this : InstructionClassification) :
  print OS this = OS +:+ print EmptyString this
  /\ print EmptyString this
     = foldr (fun c text =>
                (label c +:+ ": " +:+ decimal (count c this))
                  +:+ String newline text)
         EmptyString categories
  /\ lines (print EmptyString this)
     = map (fun c => label c +:+ ": " +:+ decimal (count c this)) categories
  /\ lines (print EmptyString this)
     = [ "  # terminator operations: " +:+ decimal (length (TermOps this));
         "  # unary operations: " +:+ decimal (length (UnaryOps this));
         "  # binary operations: " +:+ decimal (length (BinaryOps this));
         "  # float binary operations: "
           +:+ decimal (length (FloatBinaryOps this));
         "  # bitwise binary operations: "
           +:+ decimal (length (BitwiseBinaryOps this));
         "  # vector operations: " +:+ decimal (length (VectorOps this));
         "  # aggregate operations: " +:+ decimal (length (AggregateOps this));
         "  # memory access and addressing operations: "
           +:+ decimal (length (MemAccessAndAddrOps this));
         "  # conversion operations: " +:+ decimal (length (ConvOps this));
         "  # other operations: " +:+ decimal (length (OtherOps this)) ]
  /\ length (lines (print EmptyString this)) = 10
  /\ lines (print EmptyString new_InstructionClassification)
     = map (fun c => label c +:+ ": 0") categories.
Proof.
  assert (H : lines (print EmptyString this)
              = map (report_line this) categories).
  { rewrite print_report. simpl. apply lines_report. }
  split; [|split; [|split; [|split; [|split]]]].
  - by rewrite !print_report.
  - by rewrite print_report.
  - exact H.
  - rewrite H. reflexivity.
  - rewrite H. reflexivity.
  - reflexivity.
Qed.

(** C10. The text that [print] writes depends on the ten sizes only: two
    passes whose vectors have the same sizes, category by category, print
    the same text on the same stream, whatever instructions the vectors
    hold. *)
Theorem C10_report_depends_on_counts (this1 this2 : InstructionClassification)
    (OS : raw_ostream) :
  (forall c, count c this1 = count c this2) ->
  print OS this1 = print OS this2.
Proof.
  intros H. rewrite !print_report. f_equal.
  unfold report, categories, report_line. cbn [foldr].
  by rewrite !H.
Qed.

Lemma C10_report_depends_on_counts_witness :
  let this1 := classified fn_ret new_InstructionClassification in
  let this2 :=
    classified (mkFunction "k" [[Instruction.mk 9 Instruction.Br]])
      new_InstructionClassification in
  TermOps this1 <> TermOps this2
  /\ print "" this1 = print "" this2.
Proof.
  cbv zeta. split; [discriminate|].
  apply C10_report_depends_on_counts.
  intros c. destruct c; reflexivity.
Defined.

(** ** Further properties: calls in sequence *)

Section Sequence.

Implicit Types (this : InstructionClassification) (I : Instruction).
Implicit Types (c : Category) (l : list Instruction) (Fs : list Function).

Lemma selected_app c l1 l2 :
  selected c (l1 ++ l2) = selected c l1 ++ selected c l2.
Proof. apply filter_app. Qed.

Lemma classified_all_ops c Fs this :
  ops c (classified_all Fs this)
  = ops c this ++ selected c (concat (map instructions Fs)).
Proof.
  unfold classified_all. revert this.
  induction Fs as [|Fn Fs IH]; intros this; simpl.
  - unfold selected. by rewrite filter_nil, app_nil_r.
  - by rewrite IH, classified_ops, selected_app, app_assoc.
Qed.

Lemma instructions_concat name Fs :
  instructions (mkFunction name (concat (map getBasicBlockList Fs)))
  = concat (map instructions Fs).
Proof.
  unfold instructions. simpl.
  induction Fs as [|Fn Fs IH]; simpl; [done|].
  by rewrite concat_app, IH.
Qed.

Lemma length_selected_concat c Fs :
  length (selected c (concat (map instructions Fs)))
  = sum_list (map (fun Fn => length (selected c (instructions Fn))) Fs).
Proof.
  induction Fs as [|Fn Fs IH]; simpl; [done|].
  by rewrite selected_app, length_app, IH.
Qed.

Lemma total_counts_eq this1 this2 :
  (forall c, count c this1 = count c this2) -> total this1 = total this2.
Proof.
  intros H. unfold total, counts, categories. cbn [map foldr].
  by rewrite !H.
Qed.

End Sequence.

Section Counts.

Implicit Types (this : InstructionClassification) (c : Category).
Implicit Types (l : list Instruction) (Fs : list Function).

Lemma report_counts this1 this2 :
  (forall c, count c this1 = count c this2) -> report this1 = report this2.
Proof.
  intros H. unfold report, categories, report_line. cbn [foldr].
  by rewrite !H.
Qed.

Lemma total_of_selected this l :
  (forall c, ops c this = selected c l) -> total this = length l.
Proof.
  intros H. rewrite <- (selected_total l).
  unfold total, counts, categories. cbn [map foldr]. unfold count.
  by rewrite !H.
Qed.

Lemma length_concat_instructions Fs :
  length (concat (map instructions Fs)) = instruction_count Fs.
Proof.
  unfold instruction_count.
  induction Fs as [|Fn Fs IH]; simpl; [done|].
  by rewrite length_app, IH.
Qed.

End Counts.

(** X1. A function without instructions (no block, or empty blocks only)
    leaves the ten vectors as they are, and the pass prints the same text
    after the call as before. *)
Theorem empty_function_changes_nothing (Fn : Function)
    (this : InstructionClassification) (OS : raw_ostream) :
  instructions Fn = [] ->
  (forall c, ops c (classified Fn this) = ops c this)
  /\ print OS (classified Fn this) = print OS this.
Proof.
  intros HFn.
  assert (H : forall c, ops c (classified Fn this) = ops c this).
  { intros c. rewrite classified_ops, HFn. unfold selected.
    by rewrite filter_nil, app_nil_r. }
  split; [exact H|].
  rewrite !print_report. f_equal. apply report_counts.
  intros c. unfold count. by rewrite H.
Qed.

Lemma empty_function_changes_nothing_witness :
  let Fn := mkFunction "e" [[]; []] in
  let this := classified fn_add_ret new_InstructionClassification in
  (forall c, ops c (classified Fn this) = ops c this)
  /\ print "" (classified Fn this) = print "" this.
Proof. cbv zeta. apply empty_function_changes_nothing. reflexivity. Defined.

(** X2. Calls in sequence on one pass object fill the vectors as one call
    on the function that has the blocks of all the functions, one function
    after the other: each vector is what it held before, followed by the
    instructions of the first function that select it, then those of the
    second, and so on. *)
Theorem calls_in_sequence_as_one_call (Fs : list Function)
    (this : InstructionClassification) (name : string) (c : Category) :
  ops c (classified_all Fs this)
  = ops c (classified
             (mkFunction name (concat (map getBasicBlockList Fs))) this)
  /\ ops c (classified_all Fs this)
     = ops c this ++ concat (map (fun Fn => selected c (instructions Fn)) Fs).
Proof.
  split.
  - by rewrite classified_all_ops, classified_ops, instructions_concat.
  - rewrite classified_all_ops. f_equal.
    induction Fs as [|Fn Fs IH]; simpl; [done|].
    by rewrite selected_app, IH.
Qed.

(** X3. After a newly constructed pass has run over a list of functions,
    each count is the sum of the counts that the functions give one by one,
    and the ten counts together are the number of instructions of all the
    functions. *)
Theorem counts_add_up (Fs : list Function) (c : Category) :
  count c (classified_all Fs new_InstructionClassification)
  = sum_list
      (map (fun Fn => count c (classified Fn new_InstructionClassification))
         Fs)
  /\ total (classified_all Fs new_InstructionClassification)
     = instruction_count Fs.
Proof.
  split.
  - unfold count. rewrite classified_all_ops, length_app.
    replace (length (ops c new_InstructionClassification)) with 0
      by (by destruct c).
    rewrite length_selected_concat. simpl. f_equal.
    apply map_ext. intros Fn. by rewrite classified_new_ops.
  - rewrite <- length_concat_instructions. apply total_of_selected.
    intros c'. rewrite classified_all_ops. by destruct c'.
Qed.


(** X5. No call removes or moves what a vector holds: an instruction at
    index [i] of a vector is at index [i] of that vector after any number of
    further calls, and the vector before the calls is a prefix of the vector
    after them. *)
Theorem entries_stay_in_place (Fs : list Function)
    (this : InstructionClassification) (c : Category) (i : nat)
    (x : Instruction) :
  ops c this !! i = Some x ->
  ops c (classified_all Fs this) !! i = Some x
  /\ ops c this `prefix_of` ops c (classified_all Fs this).
Proof.
  intros Hx. rewrite classified_all_ops. split.
  - by apply lookup_app_l_Some.
  - by apply prefix_app_r.
Qed.

Lemma entries_stay_in_place_witness :
  let this := classified fn_ret new_InstructionClassification in
  let x := Instruction.mk 1 Instruction.Ret in
  ops Terminator (classified_all [fn_add_ret; fn_ret] this) !! 0 = Some x
  /\ ops Terminator this
       `prefix_of` ops Terminator (classified_all [fn_add_ret; fn_ret] this).
Proof. cbv zeta. apply entries_stay_in_place. reflexivity. Defined.

(** ** Further properties: the report as a record of the counts *)

Section Reading.

Implicit Types (this : InstructionClassification) (c : Category).
Implicit Types (OS : raw_ostream) (n : nat).

Lemma decimal_inj n1 n2 : decimal n1 = decimal n2 -> n1 = n2.
Proof.
  unfold decimal. intros H.
  apply (f_equal NilEmpty.uint_of_string) in H.
  rewrite !NilEmpty.usu in H. injection H as H.
  by apply DecimalN.Unsigned.to_uint_inj, Nat2N.inj in H.
Qed.

Lemma report_line_inj this1 this2 c :
  report_line this1 c = report_line this2 c -> count c this1 = count c this2.
Proof.
  unfold report_line. intros H.
  by apply String.app_inj, String.app_inj, decimal_inj in H.
Qed.

Lemma print_inj OS this1 this2 c :
  print OS this1 = print OS this2 -> count c this1 = count c this2.
Proof.
  rewrite !print_report. intros H. apply String.app_inj in H.
  apply (f_equal lines) in H. rewrite !lines_report in H.
  unfold categories in H. cbn [map] in H.
  apply report_line_inj.
  destruct c; congruence.
Qed.

End Reading.

(** X6. The text that [print] writes determines the ten counts: two passes
    that print the same text on the same stream have vectors of the same
    sizes, category by category. *)
Theorem report_determines_counts (this1 this2 : InstructionClassification)
    (OS : raw_ostream) :
  print OS this1 = print OS this2 ->
  forall c, count c this1 = count c this2.
Proof. intros H c. by apply (print_inj OS). Qed.

Lemma report_determines_counts_witness :
  let this1 := classified fn_ret new_InstructionClassification in
  let this2 :=
    classified (mkFunction "k" [[Instruction.mk 9 Instruction.Br]])
      new_InstructionClassification in
  count Terminator this1 = count Terminator this2
  /\ count Other this1 = count Other this2.
Proof.
  cbv zeta.
  split; apply (report_determines_counts _ _ "log:"); reflexivity.
Defined.

(** X7. A call on a function that has an instruction always shows in the
    report: the text printed after the call differs from the text printed
    before it, whatever the pass held. *)
Theorem nonempty_function_changes_report (Fn : Function)
    (this : InstructionClassification) (OS : raw_ostream) :
  instructions Fn <> [] ->
  print OS (classified Fn this) <> print OS this.
Proof.
  intros HFn Heq.
  assert (H : total (classified Fn this) = total this).
  { apply total_counts_eq. intros c. by apply (print_inj OS). }
  rewrite total_classified in H.
  destruct (instructions Fn); [done|]. simpl in H. lia.
Qed.

Lemma nonempty_function_changes_report_witness :
  print "" (classified fn_ret (classified fn_ret new_InstructionClassification))
  <> print "" (classified fn_ret new_InstructionClassification).
Proof. apply nonempty_function_changes_report. discriminate. Defined.

(** ** Further properties: what the counts depend on *)

Section Opcodes.

Implicit Types (this : InstructionClassification) (c : Category).
Implicit Types (l : list Instruction) (op : Instruction.Opcode).

Lemma length_selected_opcodes c l :
  length (selected c l)
  = length (filter (fun op => category_of op = c)
              (map Instruction.getOpcode l)).
Proof.
  unfold selected. induction l as [|x l IH]; [done|].
  cbn [map]. rewrite !filter_cons.
  destruct (decide _); simpl; by rewrite IH.
Qed.

Lemma category_of_arm c op :
  c <> Other -> category_of op = c <-> op ∈ arm_labels c.
Proof.
  intros Hc. destruct c; try done; clear Hc.
  all: destruct op; simpl; split; intros H; try done.
  all: first
    [ by repeat constructor
    | exfalso; revert H;
      repeat (apply not_elem_of_cons; split; [discriminate|]);
      apply not_elem_of_nil ].
Qed.

Lemma case_labels_arms : case_labels = concat (map arm_labels categories).
Proof. reflexivity. Qed.

Lemma selected_well_terminated (B : BasicBlock) :
  well_terminated B = true ->
  exists t, last B = Some t /\ selected Terminator B = [t].
Proof.
  induction B as [|x B IH]; [done|].
  destruct B as [|y B]; intros H.
  - exists x. split; [done|]. simpl in H. apply bool_decide_eq_true in H.
    unfold selected. by rewrite filter_cons_True.
  - cbn [well_terminated] in H. apply andb_true_iff in H as [Hx HB].
    apply negb_true_iff, bool_decide_eq_false in Hx.
    destruct (IH HB) as (t & Hlast & Hsel).
    exists t. split; [done|].
    unfold selected in *. by rewrite filter_cons_False.
Qed.

End Opcodes.

(** X8. The counts, and so the report, depend on how often each opcode
    occurs in the function and on nothing else: two functions whose opcode
    sequences are rearrangements of each other give the same counts and the
    same printed text on passes that hold the same. *)
Theorem counts_depend_on_opcode_multiset (Fn1 Fn2 : Function)
    (this : InstructionClassification) (OS : raw_ostream) :
  map Instruction.getOpcode (instructions Fn1)
    ≡ₚ map Instruction.getOpcode (instructions Fn2) ->
  (forall c, count c (classified Fn1 this) = count c (classified Fn2 this))
  /\ print OS (classified Fn1 this) = print OS (classified Fn2 this).
Proof.
  intros HP.
  assert (H : forall c,
    count c (classified Fn1 this) = count c (classified Fn2 this)).
  { intros c. unfold count.
    rewrite !classified_ops, !length_app, !length_selected_opcodes.
    by rewrite HP. }
  split; [exact H|].
  rewrite !print_report. f_equal. by apply report_counts.
Qed.

Lemma counts_depend_on_opcode_multiset_witness :
  let Fn1 := fn_add_ret in
  let Fn2 := mkFunction "r"
    [[Instruction.mk 20 Instruction.Ret; Instruction.mk 21 Instruction.Add]] in
  let this := classified fn_ret new_InstructionClassification in
  (forall c, count c (classified Fn1 this) = count c (classified Fn2 this))
  /\ print "" (classified Fn1 this) = print "" (classified Fn2 this).
Proof.
  cbv zeta. apply counts_depend_on_opcode_multiset.
  simpl. apply Permutation_swap.
Defined.

(** X10. For each of the nine vectors that the switch names, an instruction
    is in the vector after [runOnFunction] on a newly constructed pass
    exactly when it is an instruction of the function and its opcode is one
    of the case labels of the arm of that vector. *)
Theorem vector_holds_its_arm (Fn : Function) (c : Category)
    (I : Instruction) :
  c <> Other ->
  I ∈ ops c (classified Fn new_InstructionClassification)
  <-> I ∈ instructions Fn /\ Instruction.getOpcode I ∈ arm_labels c.
Proof.
  intros Hc.
  by rewrite classified_new_ops, elem_of_selected, category_of_arm.
Qed.

Lemma vector_holds_its_arm_witness :
  let I := Instruction.mk 2 Instruction.Add in
  I ∈ ops BinaryArithmeticInteger
        (classified fn_add_ret new_InstructionClassification)
  <-> I ∈ instructions fn_add_ret
      /\ Instruction.getOpcode I ∈ arm_labels BinaryArithmeticInteger.
Proof. cbv zeta. apply vector_holds_its_arm. discriminate. Defined.

(** X11. [OtherOps] holds, after [runOnFunction] on a newly constructed
    pass, exactly the instructions of the function whose opcode is none of
    the 55 case labels, and its size is their number. *)
Theorem other_holds_the_rest (Fn : Function) (I : Instruction) :
  let R := classified Fn new_InstructionClassification in
  (I ∈ OtherOps R
   <-> I ∈ instructions Fn /\ Instruction.getOpcode I ∉ case_labels)
  /\ OtherOps R
     = filter (fun I => Instruction.getOpcode I ∉ case_labels)
         (instructions Fn)
  /\ length case_labels = 55.
Proof.
  cbv zeta. change (OtherOps ?x) with (ops Other x).
  rewrite classified_new_ops. split; [|split; [|reflexivity]].
  - by rewrite elem_of_selected, category_of_Other.
  - unfold selected. apply list_filter_iff. intros x.
    apply category_of_Other.
Qed.

(** X12. When every basic block of the function ends with its only
    terminator, a newly constructed pass records in [TermOps] the last
    instruction of each block, block after block, so the terminator count
    is the number of basic blocks. *)
Theorem terminators_are_block_ends (Fn : Function) :
  Forall (fun B => well_terminated B = true) (getBasicBlockList Fn) ->
  let R := classified Fn new_InstructionClassification in
  TermOps R = omap last (getBasicBlockList Fn)
  /\ count Terminator R = length (getBasicBlockList Fn).
Proof.
  intros HWT. cbv zeta. unfold count.
  change (TermOps ?x) with (ops Terminator x).
  rewrite classified_new_ops. unfold instructions.
  induction HWT as [|B Bs HB _ [IH1 IH2]]; [done|].
  destruct (selected_well_terminated B HB) as (t & Hlast & Hsel).
  cbn [concat]. rewrite selected_app, Hsel.
  change (omap last (B :: Bs))
    with (match last B with
          | Some t' => t' :: omap last Bs
          | None => omap last Bs
          end).
  rewrite Hlast. simpl. split; by f_equal.
Qed.

Lemma terminators_are_block_ends_witness :
  let R := classified fn_add_ret_blocks new_InstructionClassification in
  TermOps R = omap last (getBasicBlockList fn_add_ret_blocks)
  /\ count Terminator R = length (getBasicBlockList fn_add_ret_blocks).
Proof.
  apply terminators_are_block_ends.
  repeat constructor.
Defined.

(** ** The pass on a pass object that has run before *)

Section Reached.

Implicit Types (this : InstructionClassification) (I : Instruction).
Implicit Types (c : Category) (l : list Instruction) (Fs : list Function).

(** A pass object reached from a newly constructed one by runs over [Fs]
    and then over [Fn] holds, vector by vector, the selection of all the
    instructions it has walked over. *)
Lemma reached_ops c Fs Fn :
  ops c (classified Fn (classified_all Fs new_InstructionClassification))
  = selected c (concat (map instructions Fs) ++ instructions Fn).
Proof.
  rewrite classified_ops, classified_all_ops, selected_app.
  by destruct c.
Qed.

Lemma filter_eq_absent l I :
  I ∉ l -> filter (fun J => J = I) l = [].
Proof.
  induction l as [|x l IH]; intros HI; [done|].
  apply not_elem_of_cons in HI as [Hx Hl].
  rewrite filter_cons_False by congruence. by apply IH.
Qed.

Lemma filter_eq_once l I :
  NoDup l -> I ∈ l -> length (filter (fun J => J = I) l) = 1.
Proof.
  induction 1 as [|x l Hx HND IH]; intros HI; [by apply elem_of_nil in HI|].
  destruct (decide (x = I)) as [->|Hne].
  - rewrite filter_cons_True by done. simpl.
    by rewrite filter_eq_absent.
  - rewrite filter_cons_False by done.
    apply elem_of_cons in HI as [->|HI]; [done|]. by apply IH.
Qed.

End Reached.

(** ** The run as a program: what it writes *)

Section Frame.

Implicit Types (m : Memory) (I : Instruction) (c : Category).

Lemma reads_ret {A : Type} (a : A) : reads_function_only (mret a : Stmt A).
Proof. intros m. reflexivity. Qed.

Lemma reads_bind {A B : Type} (s : Stmt A) (k : A -> Stmt B) :
  reads_function_only s -> (forall a, reads_function_only (k a)) ->
  reads_function_only (s ≫= k).
Proof.
  intros Hs Hk m. unfold mbind, Stmt_bind.
  specialize (Hs m). destruct (s m) as [a m']. simpl in Hs.
  by rewrite Hk.
Qed.

Lemma reads_assign_F : reads_function_only assign_F.
Proof. intros m. unfold assign_F. by destruct (the_pass m). Qed.

Lemma reads_inst_range : reads_function_only inst_range.
Proof. intros m. reflexivity. Qed.

Lemma reads_push_back_on c I : reads_function_only (push_back_on c I).
Proof. intros m. reflexivity. Qed.

Lemma reads_visit_stmt I : reads_function_only (visit_stmt I).
Proof.
  unfold visit_stmt.
  destruct (Instruction.getOpcode I); apply reads_push_back_on.
Qed.

Lemma reads_for_each {A : Type} (body : A -> Stmt unit) (l : list A) :
  (forall x, reads_function_only (body x)) ->
  reads_function_only (for_each body l).
Proof.
  intros Hbody. induction l as [|x l IH]; simpl.
  - apply reads_ret.
  - apply reads_bind; [apply Hbody|]. intros _. exact IH.
Qed.

Lemma reads_runOnFunction_stmt : reads_function_only runOnFunction_stmt.
Proof.
  unfold runOnFunction_stmt.
  apply reads_bind; [apply reads_assign_F|]. intros _.
  apply reads_bind; [apply reads_inst_range|]. intros l.
  apply reads_bind; [apply reads_for_each, reads_visit_stmt|]. intros _.
  apply reads_ret.
Qed.

(** The statements do to the pass object what [visit] and [runOnFunction]
    do. *)
Lemma visit_stmt_visit I m :
  visit_stmt I m = (tt, mkMemory (the_function m) (visit (the_pass m) I)).
Proof.
  destruct m as [Fn this], this, I as [a op].
  destruct op; reflexivity.
Qed.

Lemma for_each_visit (l : list Instruction) m :
  for_each visit_stmt l m
  = (tt, mkMemory (the_function m) (fold_left visit l (the_pass m))).
Proof.
  revert m. induction l as [|I l IH]; intros m; simpl.
  - by destruct m.
  - unfold mbind, Stmt_bind. rewrite visit_stmt_visit. by rewrite IH.
Qed.

Lemma runOnFunction_stmt_run m :
  runOnFunction_stmt m
  = (false,
     mkMemory (the_function m) (classified (the_function m) (the_pass m))).
Proof.
  destruct m as [Fn this]. unfold runOnFunction_stmt, mbind, Stmt_bind.
  unfold classified, runOnFunction, assign_F, inst_range.
  destruct this; simpl. by rewrite for_each_visit.
Qed.

End Frame.

(** ** Properties that depend on what the pass object held *)

(** C1, as the code has it.  On a pass object that was newly constructed and
    has run over the functions [Fs], a run over [Fn] leaves every
    instruction of [Fn] in exactly one of the ten vectors; the ten vectors
    together are a rearrangement of all the instructions walked over so far,
    those of [Fs] and those of [Fn]; and the ten sizes add up to the number
    of instructions of [Fs] plus the number of instructions of [Fn].  On any
    pass object the sum grows by the number of instructions of [Fn].  On a
    newly constructed pass the vectors are a rearrangement of the
    instructions of [Fn] and the sum is their number. *)
Theorem C1_partition (Fs : list Function) (Fn : Function)
    (this : InstructionClassification) :
  let R := classified Fn (classified_all Fs new_InstructionClassification) in
  let R0 := classified Fn new_InstructionClassification in
  Forall (fun I => exists! c, I ∈ ops c R) (instructions Fn)
  /\ concat (map (fun c => ops c R) categories)
     ≡ₚ concat (map instructions Fs) ++ instructions Fn
  /\ total R = instruction_count Fs + length (instructions Fn)
  /\ total (classified Fn this) = total this + length (instructions Fn)
  /\ concat (map (fun c => ops c R0) categories) ≡ₚ instructions Fn
  /\ total R0 = length (instructions Fn).
Proof.
  cbv zeta. split; [|split; [|split; [|split; [|split]]]].
  - apply Forall_forall. intros I HI.
    exists (category_of (Instruction.getOpcode I)). split.
    + rewrite reached_ops. apply elem_of_selected. split; [|done].
      apply elem_of_app. by right.
    + intros c Hc. rewrite reached_ops in Hc.
      by apply elem_of_selected in Hc as [_ ?].
  - etrans; [|apply selected_Permutation].
    unfold categories. cbn [map]. by rewrite !reached_ops.
  - rewrite <- length_concat_instructions, <- length_app.
    apply total_of_selected. intros c. apply reached_ops.
  - apply total_classified.
  - etrans; [|apply selected_Permutation].
    unfold categories. cbn [map]. by rewrite !classified_new_ops.
  - by rewrite total_classified.
Qed.

(** C1 fails as stated: on a pass that has classified [fn_ret], after
    classifying [fn_add_ret], which has two instructions, the ten counts add
    up to three. *)
Lemma C1_counterexample :
  let used := classified fn_ret new_InstructionClassification in
  total (classified fn_add_ret used) = 3
  /\ length (instructions fn_add_ret) = 2
  /\ total (classified fn_add_ret used) <> length (instructions fn_add_ret).
Proof. cbv zeta. split; [|split]; [reflexivity|reflexivity|discriminate]. Qed.

(** C5, as the code has it.  A run appends to each vector, behind what the
    vector held, the instructions of the function that select the vector,
    in the order of the instruction sequence: the appended part is a
    subsequence of the instruction sequence.  On a pass object that was
    newly constructed and has run over [Fs], the whole vector is a
    subsequence of the instruction sequences of [Fs] and of the function,
    one after the other in the order of the runs.  On a newly constructed
    pass the vector is the instruction sequence restricted to the
    instructions that select it. *)
Theorem C5_order (Fs : list Function) (Fn : Function)
    (this : InstructionClassification) (c : Category) :
  ops c (classified Fn this)
  = ops c this
    ++ filter (fun I => category_of (Instruction.getOpcode I) = c)
         (instructions Fn)
  /\ drop (length (ops c this)) (ops c (classified Fn this))
       `sublist_of` instructions Fn
  /\ ops c (classified Fn (classified_all Fs new_InstructionClassification))
       `sublist_of` concat (map instructions Fs) ++ instructions Fn
  /\ ops c (classified Fn new_InstructionClassification)
     = filter (fun I => category_of (Instruction.getOpcode I) = c)
         (instructions Fn)
  /\ ops c (classified Fn new_InstructionClassification)
       `sublist_of` instructions Fn.
Proof.
  split; [|split; [|split; [|split]]].
  - apply classified_ops.
  - rewrite classified_ops, drop_app_length. apply sublist_filter.
  - rewrite reached_ops. apply sublist_filter.
  - apply classified_new_ops.
  - rewrite classified_new_ops. apply sublist_filter.
Qed.

(** C5 fails as stated: on a pass that has classified [fn_ret], after
    classifying [fn_add_ret] the terminator vector starts with the [ret] of
    [fn_ret], which is no instruction of [fn_add_ret], so the vector is no
    subsequence of the input. *)
Lemma C5_counterexample :
  let used := classified fn_ret new_InstructionClassification in
  ops Terminator (classified fn_add_ret used)
  = [Instruction.mk 1 Instruction.Ret; Instruction.mk 3 Instruction.Ret]
  /\ instructions fn_add_ret
     = [Instruction.mk 2 Instruction.Add; Instruction.mk 3 Instruction.Ret]
  /\ ~ (ops Terminator (classified fn_add_ret used)
          `sublist_of` instructions fn_add_ret).
Proof.
  cbv zeta. split; [reflexivity|split; [reflexivity|]].
  intros H. apply sublist_subseteq in H.
  specialize (H (Instruction.mk 1 Instruction.Ret)).
  assert (Hin : Instruction.mk 1 Instruction.Ret ∈ instructions fn_add_ret).
  { apply H. simpl. left. }
  simpl in Hin.
  repeat (apply elem_of_cons in Hin as [Hin|Hin]; [discriminate|]).
  by apply elem_of_nil in Hin.
Qed.

(** C6, as the code has it.  The ten vectors after a run, and the text that
    [print] writes, are determined by the instruction sequence of the
    function together with the ten vectors before the run: each vector is
    the vector before the run followed by the instructions that select it,
    and each line of the report carries the sum of the two sizes.  Two runs
    on the same instruction sequence from passes with the same vectors (two
    newly constructed passes, for one) end with the same vectors and the
    same text. *)
Theorem C6_deterministic (Fn1 Fn2 : Function)
    (this1 this2 : InstructionClassification) (OS : raw_ostream) :
  instructions Fn1 = instructions Fn2 ->
  (forall c, ops c this1 = ops c this2) ->
  (forall c, ops c (classified Fn1 this1) = ops c (classified Fn2 this2))
  /\ (forall c, ops c (classified Fn1 this1)
                = ops c this1 ++ selected c (instructions Fn1))
  /\ print OS (classified Fn1 this1) = print OS (classified Fn2 this2)
  /\ lines (print EmptyString (classified Fn1 this1))
     = map (fun c =>
              label c +:+ ": "
                +:+ decimal (count c this1
                             + length (selected c (instructions Fn1))))
         categories.
Proof.
  intros HFn Hthis.
  assert (H : forall c,
    ops c (classified Fn1 this1) = ops c (classified Fn2 this2)).
  { intros c. by rewrite !classified_ops, HFn, Hthis. }
  split; [exact H|]. split; [intros c; apply classified_ops|]. split.
  - rewrite !print_report. f_equal. apply report_counts.
    intros c. unfold count. by rewrite H.
  - rewrite print_report. change (EmptyString +:+ ?s) with s.
    rewrite lines_report. apply map_ext. intros c.
    unfold report_line, count. by rewrite classified_ops, length_app.
Qed.

Lemma C6_deterministic_witness :
  let Fn1 := fn_add_ret in
  let Fn2 := mkFunction "g2"
    [[Instruction.mk 2 Instruction.Add; Instruction.mk 3 Instruction.Ret]] in
  let this1 := new_InstructionClassification in
  let this2 :=
    mkInstructionClassification (Some fn_ret) [] [] [] [] [] [] [] [] [] [] in
  (forall c, ops c (classified Fn1 this1) = ops c (classified Fn2 this2))
  /\ (forall c, ops c (classified Fn1 this1)
                = ops c this1 ++ selected c (instructions Fn1))
  /\ print "report:" (classified Fn1 this1)
     = print "report:" (classified Fn2 this2)
  /\ lines (print EmptyString (classified Fn1 this1))
     = map (fun c =>
              label c +:+ ": "
                +:+ decimal (count c this1
                             + length (selected c (instructions Fn1))))
         categories.
Proof.
  cbv zeta. apply C6_deterministic.
  - reflexivity.
  - intros c. destruct c; reflexivity.
Defined.

(** C6 fails as stated: classifying [fn_ret] a second time on the same pass
    object gives another terminator vector and another report than the
    first time. *)
Lemma C6_counterexample :
  let once := classified fn_ret new_InstructionClassification in
  let twice := classified fn_ret once in
  ops Terminator once = [Instruction.mk 1 Instruction.Ret]
  /\ ops Terminator twice
     = [Instruction.mk 1 Instruction.Ret; Instruction.mk 1 Instruction.Ret]
  /\ ops Terminator once <> ops Terminator twice
  /\ print EmptyString once <> print EmptyString twice.
Proof.
  cbv zeta. split; [reflexivity|split; [reflexivity|split]].
  - discriminate.
  - vm_compute. discriminate.
Qed.

(** C7. [runOnFunction], as a program on the memory that holds the function
    object and the pass object, leaves the function object as it finds it,
    and so does every run of its loop body: the blocks, the instruction
    sequence and every instruction are those of before.  It returns
    [false], and what it writes is the pass object, which ends as
    [runOnFunction] computes it.  [getAnalysisUsage] declares the same to
    the pass manager: it raises the flag [PreservesAll] and requires
    nothing. *)
Theorem C7_read_only (m : Memory) (AU : AnalysisUsage) :
  reads_function_only runOnFunction_stmt
  /\ (forall I, reads_function_only (visit_stmt I))
  /\ runOnFunction_stmt m
     = (false,
        mkMemory (the_function m)
          (snd (runOnFunction (the_function m) (the_pass m))))
  /\ fst (runOnFunction (the_function m) (the_pass m))
     = (false, the_function m)
  /\ PreservesAll (getAnalysisUsage AU) = true
  /\ Required (getAnalysisUsage AU) = Required AU.
Proof.
  split; [apply reads_runOnFunction_stmt|].
  split; [apply reads_visit_stmt|].
  split; [apply runOnFunction_stmt_run|].
  split; [|split; reflexivity].
  unfold runOnFunction. by destruct (the_pass m).
Qed.

(** X9. When the instructions of the function are pairwise distinct, a newly
    constructed pass records each of them exactly once: the ten vectors,
    one after the other, are a rearrangement of the instruction sequence,
    each instruction of the function occurs in them once, and so no vector
    has a duplicate and no two vectors share an instruction. *)
Theorem distinct_instructions_recorded_once (Fn : Function) :
  NoDup (instructions Fn) ->
  let R := classified Fn new_InstructionClassification in
  let all := concat (map (fun c => ops c R) categories) in
  all ≡ₚ instructions Fn
  /\ Forall (fun I => length (filter (fun J => J = I) all) = 1)
       (instructions Fn)
  /\ NoDup all
  /\ (forall c, NoDup (ops c R)).
Proof.
  intros HND. cbv zeta.
  assert (HP : concat
                 (map (fun c =>
                         ops c (classified Fn new_InstructionClassification))
                    categories)
               ≡ₚ instructions Fn).
  { etrans; [|apply selected_Permutation].
    unfold categories. cbn [map]. by rewrite !classified_new_ops. }
  split; [exact HP|]. split; [|split].
  - apply Forall_forall. intros I HI. rewrite HP. by apply filter_eq_once.
  - by rewrite HP.
  - intros c. rewrite classified_new_ops. by apply NoDup_filter.
Qed.

Lemma distinct_instructions_recorded_once_witness :
  let R := classified fn_add_ret new_InstructionClassification in
  let all := concat (map (fun c => ops c R) categories) in
  all ≡ₚ instructions fn_add_ret
  /\ Forall (fun I => length (filter (fun J => J = I) all) = 1)
       (instructions fn_add_ret)
  /\ NoDup all
  /\ (forall c, NoDup (ops c R)).
Proof.
  apply distinct_instructions_recorded_once.
  apply (bool_decide_unpack _). vm_compute. exact I.
Defined.
